(** * ChromaPrint backend (src/main.py): the cost estimator and the quote
    submission endpoint, shallowly embedded.

    Python floats are modelled as exact rationals ([Q]); [round(x, 2)] is
    modelled as rounding the exact value to the nearest multiple of 1/100,
    ties to even (the rule Python's [round] applies to the value it is
    given). *)

From Stdlib Require Import QArith Qround Lqa Lia String List ZArith Bool.
Import ListNotations.
Open Scope Q_scope.

(* ------------------------------------------------------------------ *)
(** ** Python builtins used by the source *)

Definition Qlt_bool (a b : Q) : bool := negb (Qle_bool b a).

(** [max(a, b)]: keeps [a] unless [b > a]. *)
Definition py_max (a b : Q) : Q := if Qlt_bool a b then b else a.

(** [min(a, b)]: keeps [a] unless [b < a]. *)
Definition py_min (a b : Q) : Q := if Qlt_bool b a then b else a.

(** Round to the nearest integer, ties to even. *)
Definition round_half_even (y : Q) : Z :=
  let f := Qfloor y in
  let r := y - inject_Z f in
  if Qlt_bool r (1#2) then f
  else if Qlt_bool (1#2) r then (f + 1)%Z
  else if Z.even f then f else (f + 1)%Z.

(** [round(x, 2)]. *)
Definition round2 (x : Q) : Q := round_half_even (x * 100) # 100.

(** [dict.get(key, default)] over a dict literal (an association list). *)
Fixpoint dict_get (d : list (string * Q)) (k : string) (default : Q) : Q :=
  match d with
  | [] => default
  | (k', v) :: d' => if String.eqb k k' then v else dict_get d' k default
  end.

(* ------------------------------------------------------------------ *)
(** ** Request and response models *)

Record EstimateRequest := {
  length_mm : Q;
  width_mm : Q;
  height_mm : Q;
  material : string;
  finish : string;
  complexity : Q;
  infill : Q;
  model_volume_mm3 : option Q
}.

(** The pydantic [Field] constraints of [EstimateRequest]: a request that
    reaches [estimate_cost] satisfies them. *)
Definition valid_request (r : EstimateRequest) : Prop :=
  0 < length_mm r /\ 0 < width_mm r /\ 0 < height_mm r /\
  (1#2) <= complexity r <= 2 /\
  (5#100) <= infill r <= 1 /\
  (forall v, model_volume_mm3 r = Some v -> 0 <= v).

Record LineItems := {
  li_material : Q;
  li_machine : Q;
  li_handling : Q;
  li_skin_tone_color_match : Q
}.

Record Breakdown := {
  bd_volume_cm3 : Q;
  bd_material_rate_inr_per_cm3 : Q;
  bd_machine_time_hours : Q;
  bd_finish_multiplier : Q;
  bd_complexity : Q;
  bd_line_items : LineItems
}.

Record EstimateResponse := {
  currency : string;
  estimated_cost : Q;
  breakdown : Breakdown
}.

(* ------------------------------------------------------------------ *)
(** ** Constant tables *)

Definition MATERIAL_RATE_PER_CM3_INR : list (string * Q) :=
  [("PLA", 4); ("ABS", 5); ("Resin", 12); ("Nylon", 9); ("PETG", 6)]%string.

Definition FINISH_MULTIPLIER : list (string * Q) :=
  [("Standard", 1); ("Smooth", 115#100); ("High-Gloss", 13#10); ("Matte", 11#10)]%string.

(* ------------------------------------------------------------------ *)
(** ** [estimate_cost], one definition per local binding *)

Definition volume_mm3 (req : EstimateRequest) : Q :=
  match model_volume_mm3 req with
  | Some mv =>
      if Qlt_bool 0 mv
      then mv * py_max (5#100) (py_min 1 (infill req))
      else
        let bbox_mm3 := length_mm req * width_mm req * height_mm req in
        bbox_mm3 * ((2#100) + (78#100) * infill req)
  | None =>
      let bbox_mm3 := length_mm req * width_mm req * height_mm req in
      bbox_mm3 * ((2#100) + (78#100) * infill req)
  end.

Definition volume_cm3 (req : EstimateRequest) : Q := volume_mm3 req / 1000.

Definition material_rate (req : EstimateRequest) : Q :=
  dict_get MATERIAL_RATE_PER_CM3_INR (material req) 5.

Definition finish_mult (req : EstimateRequest) : Q :=
  dict_get FINISH_MULTIPLIER (finish req) 1.

Definition base_cost (req : EstimateRequest) : Q := volume_cm3 req * material_rate req.

Definition machine_time_hours (req : EstimateRequest) : Q :=
  py_max (1#2) (volume_cm3 req / 8).

Definition machine_cost (req : EstimateRequest) : Q := machine_time_hours req * 120.

Definition handling : Q := 80.

Definition color_match : Q := 60.

Definition subtotal (req : EstimateRequest) : Q :=
  (base_cost req + machine_cost req + handling + color_match) * complexity req.

Definition estimated_cost_raw (req : EstimateRequest) : Q :=
  py_max 150 (subtotal req * finish_mult req).

Definition estimate_cost (req : EstimateRequest) : EstimateResponse :=
  {| currency := "INR";
     estimated_cost := round2 (estimated_cost_raw req);
     breakdown :=
       {| bd_volume_cm3 := round2 (volume_cm3 req);
          bd_material_rate_inr_per_cm3 := material_rate req;
          bd_machine_time_hours := round2 (machine_time_hours req);
          bd_finish_multiplier := finish_mult req;
          bd_complexity := complexity req;
          bd_line_items :=
            {| li_material := round2 (base_cost req);
               li_machine := round2 (machine_cost req);
               li_handling := handling;
               li_skin_tone_color_match := color_match |} |} |}.

(* ------------------------------------------------------------------ *)
(** ** Concrete requests *)

Definition scenario_A : EstimateRequest :=
  {| length_mm := 100; width_mm := 100; height_mm := 100;
     material := "PLA"; finish := "Standard";
     complexity := 1; infill := 2#10; model_volume_mm3 := None |}.

Definition scenario_B (l w h : Q) : EstimateRequest :=
  {| length_mm := l; width_mm := w; height_mm := h;
     material := "Resin"; finish := "High-Gloss";
     complexity := 15#10; infill := 5#10; model_volume_mm3 := Some 10000 |}.

Definition scenario_C : EstimateRequest :=
  {| length_mm := 1; width_mm := 1; height_mm := 1;
     material := "PLA"; finish := "Standard";
     complexity := 1#2; infill := 5#100; model_volume_mm3 := None |}.

(* ------------------------------------------------------------------ *)
(** ** Quote submission *)

Set Warnings "-register-all".

(** The [Dict[str, Any]] payload of a quote, as JSON values. *)
Inductive Json :=
| JNull
| JBool (b : bool)
| JNum (q : Q)
| JStr (s : string)
| JArr (l : list Json)
| JObj (l : list (string * Json)).

Record QuoteRequest := {
  q_email : string;
  q_name : option string;
  q_estimate : list (string * Json);
  q_notes : option string
}.

(** The document [submit_quote] builds; [created_at] is the clock value
    [datetime.utcnow()] returns at that point. *)
Record QuoteDoc := {
  d_email : string;
  d_name : option string;
  d_estimate : list (string * Json);
  d_notes : option string;
  d_status : string;
  d_created_at : nat
}.

(** The module-level [db]: [None] when no database is configured, otherwise
    the documents of the quote collection, oldest first. *)
Record Store := { db : option (list QuoteDoc) }.

Inductive Response :=
| HTTPException (status_code : Z) (detail : string)
| QuoteOk (id : option nat) (message : string).

Definition DEMO_TOKEN : string := "demo-token-123".

(** Modelled from the spec: [database.create_document], whose source
    (database.py) is not part of src/. The spec leaves quote documents to
    the external document store; the model inserts the document into the
    collection and returns its position as the new document's id. *)
Definition create_document (coll : list QuoteDoc) (doc : QuoteDoc) : nat * list QuoteDoc :=
  (length coll, coll ++ [doc]).

Definition submit_quote (st : Store) (body : QuoteRequest)
    (x_demo_token : option string) (now : nat) : Response * Store :=
  if negb (match x_demo_token with
           | Some t => String.eqb t DEMO_TOKEN
           | None => false
           end)
  then (HTTPException 401 "Authentication required. Please login with demo credentials.", st)
  else
    let data := {| d_email := q_email body; d_name := q_name body;
                   d_estimate := q_estimate body; d_notes := q_notes body;
                   d_status := "submitted"; d_created_at := now |} in
    match db st with
    | None =>
        (QuoteOk None "Quote submitted. Final price will be emailed (simulated).", st)
    | Some coll =>
        let (quote_id, coll') := create_document coll data in
        (QuoteOk (Some quote_id) "Quote submitted. Final price will be emailed (simulated).",
         {| db := Some coll' |})
    end.

Definition is_401 (r : Response) : bool :=
  match r with
  | HTTPException c _ => Z.eqb c 401
  | QuoteOk _ _ => false
  end.

Definition response_ok (r : Response) : bool :=
  match r with
  | HTTPException _ _ => false
  | QuoteOk _ _ => true
  end.

Definition with_complexity (r : EstimateRequest) (c : Q) : EstimateRequest :=
  {| length_mm := length_mm r; width_mm := width_mm r; height_mm := height_mm r;
     material := material r; finish := finish r; complexity := c;
     infill := infill r; model_volume_mm3 := model_volume_mm3 r |}.

Definition with_infill (r : EstimateRequest) (i : Q) : EstimateRequest :=
  {| length_mm := length_mm r; width_mm := width_mm r; height_mm := height_mm r;
     material := material r; finish := finish r; complexity := complexity r;
     infill := i; model_volume_mm3 := model_volume_mm3 r |}.

(** A 10 mm cube whose request carries a model volume of 0. *)
Definition zero_model_volume_req : EstimateRequest :=
  {| length_mm := 10; width_mm := 10; height_mm := 10;
     material := "PLA"; finish := "Standard";
     complexity := 1; infill := 2#10; model_volume_mm3 := Some 0 |}.

(** Scenario A with a complexity of 1.234, which has three decimals. *)
Definition three_decimal_complexity_req : EstimateRequest :=
  with_complexity scenario_A (1234#1000).

(** A request naming neither a known material nor a known finish. *)
Definition unknown_names_req : EstimateRequest :=
  {| length_mm := 20; width_mm := 20; height_mm := 20;
     material := "Wood"; finish := "Glitter";
     complexity := 1; infill := 2#10; model_volume_mm3 := None |}.

(** The claim C6 as the spec words it: any model volume that is present,
    0 included, replaces the bounding-box approximation. *)
Definition model_volume_always_used : Prop :=
  forall r v, valid_request r -> model_volume_mm3 r = Some v ->
  volume_mm3 r == v * py_max (5#100) (py_min 1 (infill r)).

(** The claim C7 as the spec words it: every numeric field of the
    response is its full-precision value rounded to 2 decimals. *)
Definition all_fields_rounded : Prop :=
  forall r, valid_request r ->
  let o := estimate_cost r in
  let b := breakdown o in
  let li := bd_line_items b in
  bd_volume_cm3 b == round2 (volume_cm3 r) /\
  bd_material_rate_inr_per_cm3 b == round2 (material_rate r) /\
  bd_machine_time_hours b == round2 (machine_time_hours r) /\
  bd_finish_multiplier b == round2 (finish_mult r) /\
  bd_complexity b == round2 (complexity r) /\
  li_material li == round2 (base_cost r) /\
  li_machine li == round2 (machine_cost r) /\
  li_handling li == round2 handling /\
  li_skin_tone_color_match li == round2 color_match /\
  estimated_cost o == round2 (estimated_cost_raw r).

(** A quote request and an empty quote collection. *)
Definition sample_quote : QuoteRequest :=
  {| q_email := "ankitmht42@gmail.com"; q_name := Some "Demo User"%string;
     q_estimate := [("estimated_cost", JNum 3484)]%string; q_notes := None |}.

Definition empty_store : Store := {| db := Some [] |}.

(* ------------------------------------------------------------------ *)
(** ** Request updates used to compare quotes *)

Definition with_material (r : EstimateRequest) (m : string) : EstimateRequest :=
  {| length_mm := length_mm r; width_mm := width_mm r; height_mm := height_mm r;
     material := m; finish := finish r; complexity := complexity r;
     infill := infill r; model_volume_mm3 := model_volume_mm3 r |}.

Definition with_finish (r : EstimateRequest) (f : string) : EstimateRequest :=
  {| length_mm := length_mm r; width_mm := width_mm r; height_mm := height_mm r;
     material := material r; finish := f; complexity := complexity r;
     infill := infill r; model_volume_mm3 := model_volume_mm3 r |}.

Definition with_dims (r : EstimateRequest) (l w h : Q) : EstimateRequest :=
  {| length_mm := l; width_mm := w; height_mm := h;
     material := material r; finish := finish r; complexity := complexity r;
     infill := infill r; model_volume_mm3 := model_volume_mm3 r |}.

Definition with_model_volume (r : EstimateRequest) (mv : option Q) : EstimateRequest :=
  {| length_mm := length_mm r; width_mm := width_mm r; height_mm := height_mm r;
     material := material r; finish := finish r; complexity := complexity r;
     infill := infill r; model_volume_mm3 := mv |}.

(* ------------------------------------------------------------------ *)
(** ** Demo login ([login]) *)

(** The environment variables [login] reads. *)
Record Env := {
  env_DEMO_EMAIL : option string;
  env_DEMO_PASSWORD : option string
}.

(** [os.getenv(name, default)]. *)
Definition getenv (v : option string) (default : string) : string :=
  match v with Some s => s | None => default end.

Definition DEMO_EMAIL (env : Env) : string :=
  getenv (env_DEMO_EMAIL env) "ankitmht42@gmail.com".

Definition DEMO_PASSWORD (env : Env) : string :=
  getenv (env_DEMO_PASSWORD env) "Ankitmehta007".

Record LoginRequest := {
  l_email : string;
  l_password : string
}.

Record UserDoc := {
  u_name : string;
  u_email : string;
  u_created_at : nat
}.

Inductive LoginResponse :=
| LoginOk (token : string) (user_email : string) (user_name : string)
| LoginError (status_code : Z) (detail : string).

(** pymongo's [update_one({"email": email}, {"$setOnInsert": doc},
    upsert=True)]: a matching document is left as it is ([$setOnInsert]
    only writes on insertion); without one, [doc] is inserted. *)
Definition upsert_user (coll : list UserDoc) (email : string) (doc : UserDoc) : list UserDoc :=
  if existsb (fun u => String.eqb (u_email u) email) coll then coll else coll ++ [doc].

(** [login]; [users] is [db["user"]] ([None] when [db] is [None]). *)
Definition login (env : Env) (users : option (list UserDoc)) (req : LoginRequest)
    (now : nat) : LoginResponse * option (list UserDoc) :=
  if String.eqb (l_email req) (DEMO_EMAIL env) && String.eqb (l_password req) (DEMO_PASSWORD env)
  then
    let users' :=
      match users with
      | None => None
      | Some coll =>
          Some (upsert_user coll (DEMO_EMAIL env)
                  {| u_name := "Demo User"; u_email := DEMO_EMAIL env; u_created_at := now |})
      end in
    (LoginOk DEMO_TOKEN (DEMO_EMAIL env) "Demo User", users')
  else (LoginError 401 "Invalid credentials. Use demo credentials provided.", users).

Definition count_email (coll : list UserDoc) (email : string) : nat :=
  length (filter (fun u => String.eqb (u_email u) email) coll).

(* ------------------------------------------------------------------ *)
(** ** Printer catalogue ([list_printers]) *)

Record Printer := {
  title : string;
  brand : string;
  price_inr : Z;
  image : string;
  features : list string;
  specs : list (string * string)
}.

(** A printer as stored and listed: [created_at] is set on the copies the
    seeding inserts, absent from the in-memory samples. *)
Record PrinterDoc := {
  p_printer : Printer;
  p_created_at : option nat
}.

Definition SAMPLE_PRINTERS : list Printer := [
  {| title := "ChromaPrint Pro X1"; brand := "ChromaPrint"; price_inr := 149999;
     image := "https://images.unsplash.com/photo-1581091012184-7c54c7d64c9b?q=80&w=1200&auto=format&fit=crop";
     features := ["Skin-tone accurate calibration"; "300mm³ build volume"; "Dual extruder"; "Silent core"];
     specs := [("build_volume_mm", "300 x 300 x 300"); ("layer_height", "50-300μm"); ("nozzle", "0.4mm")] |};
  {| title := "ChromaPrint Studio S2"; brand := "ChromaPrint"; price_inr := 89999;
     image := "https://images.unsplash.com/photo-1581090485640-7f4c1e5c127c?q=80&w=1200&auto=format&fit=crop";
     features := ["AI color profiling"; "Auto-leveling"; "Wi‑Fi"];
     specs := [("build_volume_mm", "220 x 220 x 250"); ("layer_height", "100-300μm"); ("nozzle", "0.4mm")] |};
  {| title := "ChromaPrint Resin R1"; brand := "ChromaPrint"; price_inr := 129999;
     image := "https://images.unsplash.com/photo-1581090700227-1e37b32f0d06?q=80&w=1200&auto=format&fit=crop";
     features := ["Ultra-fine detail"; "Dermatone matching"; "Enclosed chamber"];
     specs := [("build_volume_mm", "130 x 80 x 160"); ("layer_height", "25-100μm")] |}
]%string.

Definition stamp (now : nat) (p : Printer) : PrinterDoc :=
  {| p_printer := p; p_created_at := Some now |}.

(** [list_printers]; [printers] is [db[PRINTER_COLLECTION]] ([None] when
    [db] is [None]); it returns the items and the collection afterwards. *)
Definition list_printers (printers : option (list PrinterDoc)) (now : nat)
    : list PrinterDoc * option (list PrinterDoc) :=
  match printers with
  | None => (map (fun p => {| p_printer := p; p_created_at := None |}) SAMPLE_PRINTERS, None)
  | Some coll =>
      let coll' :=
        if Nat.eqb (length coll) 0 then coll ++ map (stamp now) SAMPLE_PRINTERS else coll in
      (coll', Some coll')
  end.

(* ------------------------------------------------------------------ *)
(** ** Order listing ([list_orders]) *)

Section Orders.

(** Document values, and Python's [str] on them. *)
Variable V : Type.
Variable py_str : V -> V.

(** A document as a dict: keys in insertion order, each at most once. *)
Definition Doc := list (string * V).

Fixpoint dict_lookup (d : Doc) (k : string) : option V :=
  match d with
  | [] => None
  | (k', v) :: d' => if String.eqb k' k then Some v else dict_lookup d' k
  end.

(** [d[k] = v]: an existing key keeps its place, a new one goes last. *)
Fixpoint dict_set (d : Doc) (k : string) (v : V) : Doc :=
  match d with
  | [] => [(k, v)]
  | (k', v') :: d' => if String.eqb k' k then (k, v) :: d' else (k', v') :: dict_set d' k v
  end.

(** The body of the loop of [list_orders]. *)
Definition order_item (d : Doc) : Doc :=
  let d_copy := filter (fun kv => negb (String.eqb (fst kv) "_id")) d in
  match dict_lookup d "_id" with
  | Some oid => dict_set d_copy "id" (py_str oid)
  | None => d_copy
  end.

(** [list_orders]; [docs] is what [get_documents] returns (database.py,
    which defines it, is not part of src/), [None] when [db] is [None]. *)
Definition list_orders (docs : option (list Doc)) : list Doc :=
  match docs with
  | None => []
  | Some ds => map order_item ds
  end.

End Orders.

Arguments dict_lookup {V}.
Arguments dict_set {V}.
Arguments order_item {V}.
Arguments list_orders {V}.

(** The default configuration and the demo credentials it accepts. *)
Definition default_env : Env := {| env_DEMO_EMAIL := None; env_DEMO_PASSWORD := None |}.

Definition demo_login : LoginRequest :=
  {| l_email := "ankitmht42@gmail.com"; l_password := "Ankitmehta007" |}.

(* ================================================================== *)
(** * Lemmas *)

Lemma Qlt_bool_iff (a b : Q) : Qlt_bool a b = true <-> a < b.
Proof.
  unfold Qlt_bool. rewrite negb_true_iff.
  split; intro H.
  - apply Qnot_le_lt. intro H'. apply Qle_bool_iff in H'. congruence.
  - destruct (Qle_bool b a) eqn:E; [|reflexivity].
    apply Qle_bool_iff in E. exfalso. apply (Qlt_not_le a b); assumption.
Qed.

Lemma Qlt_bool_false (a b : Q) : Qlt_bool a b = false <-> b <= a.
Proof.
  unfold Qlt_bool. rewrite negb_false_iff. apply Qle_bool_iff.
Qed.

Lemma py_max_ge_l (a b : Q) : a <= py_max a b.
Proof.
  unfold py_max. destruct (Qlt_bool a b) eqn:E.
  - apply Qlt_bool_iff in E. lra.
  - lra.
Qed.

Lemma py_max_ge_r (a b : Q) : b <= py_max a b.
Proof.
  unfold py_max. destruct (Qlt_bool a b) eqn:E.
  - lra.
  - apply Qlt_bool_false in E. exact E.
Qed.

Lemma py_max_mono (a b c : Q) : b <= c -> py_max a b <= py_max a c.
Proof.
  intro Hbc. unfold py_max.
  destruct (Qlt_bool a b) eqn:E1, (Qlt_bool a c) eqn:E2;
    try rewrite Qlt_bool_iff in *; try rewrite Qlt_bool_false in *; lra.
Qed.

Lemma round_half_even_bounds (y : Q) :
  (Qfloor y <= round_half_even y <= Qfloor y + 1)%Z.
Proof.
  unfold round_half_even.
  destruct (Qlt_bool _ (1#2)); [lia|].
  destruct (Qlt_bool (1#2) _); [lia|].
  destruct (Z.even _); lia.
Qed.

Lemma round_half_even_mono (x y : Q) :
  x <= y -> (round_half_even x <= round_half_even y)%Z.
Proof.
  intro Hxy.
  pose proof (Qfloor_resp_le x y Hxy) as Hf.
  pose proof (round_half_even_bounds x) as Bx.
  pose proof (round_half_even_bounds y) as By.
  destruct (Z.eq_dec (Qfloor x) (Qfloor y)) as [Heq|Hne]; [|lia].
  unfold round_half_even. rewrite <- Heq.
  set (f := Qfloor x).
  assert (Hr : x - inject_Z f <= y - inject_Z f) by lra.
  destruct (Qlt_bool (x - inject_Z f) (1#2)) eqn:E1.
  { destruct (Qlt_bool (y - inject_Z f) (1#2)); [lia|].
    destruct (Qlt_bool (1#2) _); [lia|]. destruct (Z.even f); lia. }
  destruct (Qlt_bool (1#2) (x - inject_Z f)) eqn:E2.
  { rewrite Qlt_bool_iff in E2.
    destruct (Qlt_bool (y - inject_Z f) (1#2)) eqn:E3.
    { rewrite Qlt_bool_iff in E3. lra. }
    destruct (Qlt_bool (1#2) (y - inject_Z f)) eqn:E4; [lia|].
    rewrite Qlt_bool_false in E4. lra. }
  destruct (Qlt_bool (y - inject_Z f) (1#2)) eqn:E3.
  { rewrite Qlt_bool_false in E1. rewrite Qlt_bool_iff in E3. lra. }
  destruct (Qlt_bool (1#2) (y - inject_Z f)); [destruct (Z.even f); lia|].
  lia.
Qed.

Lemma round2_mono (x y : Q) : x <= y -> round2 x <= round2 y.
Proof.
  intro Hxy. unfold round2.
  assert (H : x * 100 <= y * 100) by lra.
  pose proof (round_half_even_mono _ _ H) as Hm.
  unfold Qle; simpl. lia.
Qed.

Lemma round2_150 : round2 150 == 150.
Proof. vm_compute. reflexivity. Qed.

Lemma round2_half : round2 (1#2) == 1#2.
Proof. vm_compute. reflexivity. Qed.

Ltac cases_dict :=
  repeat match goal with
         | |- context [if ?b then _ else _] => destruct b
         end.

Lemma material_rate_cases (r : EstimateRequest) :
  material_rate r = 4 \/ material_rate r = 5 \/ material_rate r = 12 \/
  material_rate r = 9 \/ material_rate r = 6.
Proof. unfold material_rate, dict_get; simpl; cases_dict; auto 6. Qed.

Lemma finish_mult_cases (r : EstimateRequest) :
  finish_mult r = 1 \/ finish_mult r = 115#100 \/ finish_mult r = 13#10 \/
  finish_mult r = 11#10.
Proof. unfold finish_mult, dict_get; simpl; cases_dict; auto 6. Qed.

Lemma material_rate_nonneg (r : EstimateRequest) : 0 <= material_rate r.
Proof.
  destruct (material_rate_cases r) as [E|[E|[E|[E|E]]]]; rewrite E; discriminate.
Qed.

Lemma finish_mult_nonneg (r : EstimateRequest) : 0 <= finish_mult r.
Proof.
  destruct (finish_mult_cases r) as [E|[E|[E|E]]]; rewrite E; discriminate.
Qed.

Lemma bbox_pos (r : EstimateRequest) :
  valid_request r -> 0 < length_mm r * width_mm r * height_mm r.
Proof.
  intros (Hl & Hw & Hh & _).
  apply Qmult_lt_0_compat; [apply Qmult_lt_0_compat|]; assumption.
Qed.

Lemma volume_mm3_nonneg (r : EstimateRequest) :
  valid_request r -> 0 <= volume_mm3 r.
Proof.
  intro Hv. pose proof (bbox_pos r Hv) as Hb.
  destruct Hv as (_ & _ & _ & _ & [Hi1 Hi2] & _).
  unfold volume_mm3.
  destruct (model_volume_mm3 r) as [mv|].
  - destruct (Qlt_bool 0 mv) eqn:E.
    + apply Qlt_bool_iff in E.
      pose proof (py_max_ge_l (5#100) (py_min 1 (infill r))).
      apply Qmult_le_0_compat; lra.
    + apply Qmult_le_0_compat; lra.
  - apply Qmult_le_0_compat; lra.
Qed.

Lemma volume_cm3_nonneg (r : EstimateRequest) :
  valid_request r -> 0 <= volume_cm3 r.
Proof.
  intro Hv. pose proof (volume_mm3_nonneg r Hv). unfold volume_cm3.
  apply Qle_shift_div_l; [reflexivity|]. lra.
Qed.

Lemma base_cost_nonneg (r : EstimateRequest) :
  valid_request r -> 0 <= base_cost r.
Proof.
  intro Hv. unfold base_cost.
  apply Qmult_le_0_compat; [apply volume_cm3_nonneg; exact Hv|apply material_rate_nonneg].
Qed.

Lemma machine_cost_ge (r : EstimateRequest) : 60 <= machine_cost r.
Proof.
  unfold machine_cost. pose proof (py_max_ge_l (1#2) (volume_cm3 r / 8)).
  unfold machine_time_hours. lra.
Qed.

(* ================================================================== *)
(** * Claims *)

(** C1: Scenario A (a 100 mm PLA cube, Standard finish, complexity 1.0,
    infill 0.2, no model volume) is quoted at 3484.0, with volume 176.0 cm3,
    material line item 704.0, machine time 22.0 h and machine line item
    2640.0. *)
Theorem estimate_scenario_A :
  let o := estimate_cost scenario_A in
  estimated_cost o == 3484 /\
  bd_volume_cm3 (breakdown o) == 176 /\
  li_material (bd_line_items (breakdown o)) == 704 /\
  bd_machine_time_hours (breakdown o) == 22 /\
  li_machine (bd_line_items (breakdown o)) == 2640.
Proof. vm_compute. repeat split; reflexivity. Qed.

(** C2: Scenario B (model volume 10000 mm3, infill 0.5, Resin, High-Gloss,
    complexity 1.5) takes the model-volume path with the infill clamped to
    [0.05, 1.0], whatever the bounding box, and is quoted at 536.25, with
    volume 5.0 cm3, material line item 60.0, machine time 0.625 h (reported
    as 0.62) and machine line item 75.0. *)
Theorem estimate_scenario_B (l w h : Q) :
  let r := scenario_B l w h in
  let o := estimate_cost r in
  volume_mm3 r == 10000 * py_max (5#100) (py_min 1 (5#10)) /\
  estimated_cost o == 53625#100 /\
  bd_volume_cm3 (breakdown o) == 5 /\
  li_material (bd_line_items (breakdown o)) == 60 /\
  machine_time_hours r == 625#1000 /\
  bd_machine_time_hours (breakdown o) == 62#100 /\
  li_machine (bd_line_items (breakdown o)) == 75.
Proof. vm_compute. repeat split; reflexivity. Qed.

(** C3: every valid request is quoted at least 150.0, and Scenario C (a
    1 mm PLA cube, complexity 0.5, infill 0.05) hits the floor exactly. *)
Theorem estimate_floor :
  (forall r, valid_request r -> 150 <= estimated_cost (estimate_cost r)) /\
  estimated_cost (estimate_cost scenario_C) == 150.
Proof.
  split.
  - intros r _. simpl. rewrite <- round2_150.
    apply round2_mono. apply py_max_ge_l.
  - vm_compute. reflexivity.
Qed.

(** C4: with everything else fixed, the quote of a valid request does not
    decrease when complexity grows within [0.5, 2.0]. *)
Theorem estimate_mono_complexity (r : EstimateRequest) (c1 c2 : Q) :
  valid_request r -> (1#2) <= c1 -> c1 <= c2 -> c2 <= 2 ->
  estimated_cost (estimate_cost (with_complexity r c1)) <=
  estimated_cost (estimate_cost (with_complexity r c2)).
Proof.
  intros Hv H1 H12 H2. simpl. apply round2_mono.
  unfold estimated_cost_raw. apply py_max_mono.
  change (finish_mult (with_complexity r c1)) with (finish_mult r).
  change (finish_mult (with_complexity r c2)) with (finish_mult r).
  apply Qmult_le_compat_r; [|apply finish_mult_nonneg].
  unfold subtotal.
  change (base_cost (with_complexity r c1)) with (base_cost r).
  change (base_cost (with_complexity r c2)) with (base_cost r).
  change (machine_cost (with_complexity r c1)) with (machine_cost r).
  change (machine_cost (with_complexity r c2)) with (machine_cost r).
  simpl complexity.
  pose proof (base_cost_nonneg r Hv). pose proof (machine_cost_ge r).
  rewrite (Qmult_comm _ c1), (Qmult_comm _ c2).
  apply Qmult_le_compat_r; [exact H12|].
  unfold handling, color_match. lra.
Qed.

Lemma volume_mm3_mono_infill (r : EstimateRequest) (i1 i2 : Q) :
  valid_request r -> model_volume_mm3 r = None -> i1 <= i2 ->
  volume_mm3 (with_infill r i1) <= volume_mm3 (with_infill r i2).
Proof.
  intros Hv Hn H12. pose proof (bbox_pos r Hv) as Hb.
  unfold volume_mm3; simpl; rewrite Hn.
  rewrite !(Qmult_comm (length_mm r * width_mm r * height_mm r)).
  apply Qmult_le_compat_r; lra.
Qed.

(** C5: with everything else fixed and no model volume, the quote of a
    valid request does not decrease when infill grows within [0.05, 1.0]. *)
Theorem estimate_mono_infill (r : EstimateRequest) (i1 i2 : Q) :
  valid_request r -> model_volume_mm3 r = None ->
  (5#100) <= i1 -> i1 <= i2 -> i2 <= 1 ->
  estimated_cost (estimate_cost (with_infill r i1)) <=
  estimated_cost (estimate_cost (with_infill r i2)).
Proof.
  intros Hv Hn H1 H12 H2.
  pose proof (volume_mm3_mono_infill r i1 i2 Hv Hn H12) as Hvol.
  assert (Hcm : volume_cm3 (with_infill r i1) <= volume_cm3 (with_infill r i2)).
  { unfold volume_cm3, Qdiv. apply Qmult_le_compat_r; [exact Hvol|discriminate]. }
  assert (Hbase : base_cost (with_infill r i1) <= base_cost (with_infill r i2)).
  { unfold base_cost.
    change (material_rate (with_infill r i1)) with (material_rate r).
    change (material_rate (with_infill r i2)) with (material_rate r).
    apply Qmult_le_compat_r; [exact Hcm|apply material_rate_nonneg]. }
  assert (Hmach : machine_cost (with_infill r i1) <= machine_cost (with_infill r i2)).
  { unfold machine_cost, machine_time_hours.
    apply Qmult_le_compat_r; [|discriminate].
    apply py_max_mono. unfold Qdiv. apply Qmult_le_compat_r; [exact Hcm|discriminate]. }
  destruct Hv as (_ & _ & _ & [Hc1 Hc2] & _).
  simpl. apply round2_mono.
  unfold estimated_cost_raw. apply py_max_mono.
  change (finish_mult (with_infill r i1)) with (finish_mult r).
  change (finish_mult (with_infill r i2)) with (finish_mult r).
  apply Qmult_le_compat_r; [|apply finish_mult_nonneg].
  unfold subtotal. simpl complexity.
  apply Qmult_le_compat_r; [|lra].
  unfold handling, color_match. lra.
Qed.

(** C6 (counterexample): a model volume of 0 is present, yet the volume
    comes from the bounding box (0.176 cm3 of material, not 0). *)
Lemma model_volume_zero_counterexample : ~ model_volume_always_used.
Proof.
  intro H.
  assert (Hv : valid_request zero_model_volume_req).
  { unfold valid_request; simpl. repeat split; try lra.
    intros v E. injection E as <-. lra. }
  specialize (H zero_model_volume_req 0 Hv eq_refl).
  vm_compute in H. discriminate H.
Qed.

(** C6 (amended): a model volume that is present and positive gives
    [volume_mm3 = model_volume_mm3 * clamp(infill, 0.05, 1.0)], whatever
    the bounding box; a model volume of 0 (or below) is ignored and the
    bounding-box approximation is used, as when it is absent. *)
Theorem volume_mm3_model_path (r : EstimateRequest) (v : Q) :
  model_volume_mm3 r = Some v ->
  (0 < v -> volume_mm3 r == v * py_max (5#100) (py_min 1 (infill r))) /\
  (v <= 0 -> volume_mm3 r ==
     length_mm r * width_mm r * height_mm r * ((2#100) + (78#100) * infill r)).
Proof.
  intro E. unfold volume_mm3. rewrite E. split; intro Hv.
  - apply Qlt_bool_iff in Hv. rewrite Hv. reflexivity.
  - assert (Hf : Qlt_bool 0 v = false) by (apply Qlt_bool_false; exact Hv).
    rewrite Hf. reflexivity.
Qed.

(** C7 (counterexample): a valid request with complexity 1.234 gets that
    value back unrounded in the breakdown, not 1.23. *)
Lemma complexity_unrounded_counterexample : ~ all_fields_rounded.
Proof.
  intro H.
  assert (Hv : valid_request three_decimal_complexity_req).
  { unfold valid_request; simpl. repeat split; try lra.
    intros v E. discriminate E. }
  destruct (H three_decimal_complexity_req Hv) as (_ & _ & _ & _ & Hc & _).
  vm_compute in Hc. discriminate Hc.
Qed.

Lemma round2_material_rate (r : EstimateRequest) :
  material_rate r == round2 (material_rate r).
Proof.
  destruct (material_rate_cases r) as [E|[E|[E|[E|E]]]]; rewrite E;
    vm_compute; reflexivity.
Qed.

Lemma round2_finish_mult (r : EstimateRequest) :
  finish_mult r == round2 (finish_mult r).
Proof.
  destruct (finish_mult_cases r) as [E|[E|[E|E]]]; rewrite E;
    vm_compute; reflexivity.
Qed.

(** C7 (amended): volume, machine time, the material and machine line
    items and the estimated cost are their full-precision values rounded
    to 2 decimals; the material rate, finish multiplier, handling and
    colour-match charges are the table constants as they are (each has at
    most 2 decimals, so each equals its rounding); the complexity is the
    request's value as given, not rounded. *)
Theorem breakdown_rounding (r : EstimateRequest) :
  let o := estimate_cost r in
  let b := breakdown o in
  let li := bd_line_items b in
  bd_volume_cm3 b = round2 (volume_cm3 r) /\
  bd_material_rate_inr_per_cm3 b = material_rate r /\
  material_rate r == round2 (material_rate r) /\
  bd_machine_time_hours b = round2 (machine_time_hours r) /\
  bd_finish_multiplier b = finish_mult r /\
  finish_mult r == round2 (finish_mult r) /\
  bd_complexity b = complexity r /\
  li_material li = round2 (base_cost r) /\
  li_machine li = round2 (machine_cost r) /\
  li_handling li = 80 /\ li_skin_tone_color_match li = 60 /\
  handling == round2 handling /\ color_match == round2 color_match /\
  estimated_cost o = round2 (estimated_cost_raw r).
Proof.
  simpl. repeat split; try reflexivity;
    auto using round2_material_rate, round2_finish_mult.
Qed.

(** C8: an unknown material is charged (and reported) at 5.0 per cm3 and
    an unknown finish gets multiplier 1.0; [estimate_cost] is a total
    function, so neither case fails. *)
Theorem unknown_material_finish_defaults (r : EstimateRequest) :
  (~ In (material r) ["PLA"; "ABS"; "Resin"; "Nylon"; "PETG"]%string ->
   material_rate r = 5 /\
   bd_material_rate_inr_per_cm3 (breakdown (estimate_cost r)) = 5) /\
  (~ In (finish r) ["Standard"; "Smooth"; "High-Gloss"; "Matte"]%string ->
   finish_mult r = 1 /\
   bd_finish_multiplier (breakdown (estimate_cost r)) = 1).
Proof.
  simpl. unfold material_rate, finish_mult, dict_get; simpl.
  split; intro Hn.
  - repeat match goal with
           | |- context [String.eqb ?k ?k'] =>
               let E := fresh "E" in
               destruct (String.eqb k k') eqn:E;
               [apply String.eqb_eq in E; exfalso; apply Hn; rewrite E; simpl; tauto|]
           end.
    split; reflexivity.
  - repeat match goal with
           | |- context [String.eqb ?k ?k'] =>
               let E := fresh "E" in
               destruct (String.eqb k k') eqn:E;
               [apply String.eqb_eq in E; exfalso; apply Hn; rewrite E; simpl; tauto|]
           end.
    split; reflexivity.
Qed.

(** C9: for every request, whatever its volume, the machine time used for
    costing and the one reported are at least half an hour. *)
Theorem machine_time_at_least_half (r : EstimateRequest) :
  (1#2) <= machine_time_hours r /\
  (1#2) <= bd_machine_time_hours (breakdown (estimate_cost r)).
Proof.
  split.
  - apply py_max_ge_l.
  - simpl. rewrite <- round2_half. apply round2_mono. apply py_max_ge_l.
Qed.

(** C10: [submit_quote] answers 401 exactly when the [x-demo-token] header
    is absent or differs from "demo-token-123"; it then leaves the store
    unchanged; with the right token it answers [ok = True]. *)
Theorem submit_quote_auth (st : Store) (body : QuoteRequest)
    (tok : option string) (now : nat) :
  let (resp, st') := submit_quote st body tok now in
  (is_401 resp = true <-> tok <> Some DEMO_TOKEN) /\
  (is_401 resp = true -> st' = st) /\
  (tok = Some DEMO_TOKEN -> response_ok resp = true).
Proof.
  unfold submit_quote.
  destruct tok as [t|].
  - destruct (String.eqb t DEMO_TOKEN) eqn:E.
    + apply String.eqb_eq in E. subst t. simpl.
      destruct (db st) as [coll|]; simpl;
        repeat split; try discriminate; intro H; congruence.
    + simpl.
      assert (Hne : Some t <> Some DEMO_TOKEN).
      { intro H. injection H as ->. rewrite String.eqb_refl in E. discriminate. }
      split; [split; intros _; [exact Hne|reflexivity]|].
      split; [intros _; reflexivity|intro H; contradiction].
  - simpl. repeat split; try reflexivity; discriminate.
Qed.

(* ================================================================== *)
(** * Witnesses: the claims' theorems at concrete requests *)

Ltac valid_req :=
  unfold valid_request; simpl; repeat split; try lra;
  intros ? E; first [discriminate E | injection E as <-; lra].

Lemma estimate_floor_witness :
  valid_request scenario_C /\ 150 <= estimated_cost (estimate_cost scenario_C).
Proof.
  assert (Hv : valid_request scenario_C) by valid_req.
  split; [exact Hv|]. exact (proj1 estimate_floor scenario_C Hv).
Defined.

Lemma estimate_mono_complexity_witness :
  valid_request scenario_A /\
  estimated_cost (estimate_cost (with_complexity scenario_A 1)) <=
  estimated_cost (estimate_cost (with_complexity scenario_A 2)).
Proof.
  assert (Hv : valid_request scenario_A) by valid_req.
  split; [exact Hv|].
  apply (estimate_mono_complexity scenario_A 1 2 Hv); lra.
Defined.

Lemma estimate_mono_infill_witness :
  valid_request scenario_A /\
  estimated_cost (estimate_cost (with_infill scenario_A (2#10))) <=
  estimated_cost (estimate_cost (with_infill scenario_A (5#10))).
Proof.
  assert (Hv : valid_request scenario_A) by valid_req.
  split; [exact Hv|].
  apply (estimate_mono_infill scenario_A (2#10) (5#10) Hv eq_refl); lra.
Defined.

Lemma volume_mm3_model_path_witness :
  model_volume_mm3 (scenario_B 1 1 1) = Some 10000 /\
  volume_mm3 (scenario_B 1 1 1) == 10000 * py_max (5#100) (py_min 1 (5#10)).
Proof.
  split; [reflexivity|].
  apply (proj1 (volume_mm3_model_path (scenario_B 1 1 1) 10000 eq_refl)).
  lra.
Defined.

Lemma unknown_material_finish_defaults_witness :
  material_rate unknown_names_req = 5 /\ finish_mult unknown_names_req = 1.
Proof.
  destruct (unknown_material_finish_defaults unknown_names_req) as [Hm Hf].
  split.
  - apply Hm. simpl. intros [H|[H|[H|[H|[H|[]]]]]]; discriminate H.
  - apply Hf. simpl. intros [H|[H|[H|[H|[]]]]]; discriminate H.
Defined.

Lemma submit_quote_auth_witness :
  response_ok (fst (submit_quote empty_store sample_quote (Some DEMO_TOKEN) 0)) = true.
Proof.
  pose proof (submit_quote_auth empty_store sample_quote (Some DEMO_TOKEN) 0) as H.
  simpl in H. simpl. destruct H as (_ & _ & H3). apply H3. reflexivity.
Defined.

(* ================================================================== *)
(** * Further properties of the estimator *)

(** The quote reads the request only through the volume, the material
    rate, the finish multiplier and the complexity. *)
Lemma estimate_cost_ext (r1 r2 : EstimateRequest) :
  volume_mm3 r1 = volume_mm3 r2 -> material_rate r1 = material_rate r2 ->
  finish_mult r1 = finish_mult r2 -> complexity r1 = complexity r2 ->
  estimate_cost r1 = estimate_cost r2.
Proof.
  intros Hv Hm Hf Hc.
  unfold estimate_cost, estimated_cost_raw, subtotal, machine_cost,
    machine_time_hours, base_cost, volume_cm3.
  rewrite Hv, Hm, Hf, Hc. reflexivity.
Qed.

(** Two requests that agree on material, finish and a nonnegative
    complexity are quoted in the order of their volumes. *)
Lemma estimate_mono_volume (r1 r2 : EstimateRequest) :
  0 <= volume_mm3 r1 -> volume_mm3 r1 <= volume_mm3 r2 ->
  material_rate r1 = material_rate r2 -> finish_mult r1 = finish_mult r2 ->
  complexity r1 = complexity r2 -> 0 <= complexity r1 ->
  estimated_cost (estimate_cost r1) <= estimated_cost (estimate_cost r2).
Proof.
  intros H0 Hv Hm Hf Hc Hc0.
  assert (Hcm : volume_cm3 r1 <= volume_cm3 r2).
  { unfold volume_cm3, Qdiv. apply Qmult_le_compat_r; [exact Hv|discriminate]. }
  assert (Hbase : base_cost r1 <= base_cost r2).
  { unfold base_cost. rewrite Hm.
    apply Qmult_le_compat_r; [exact Hcm|apply material_rate_nonneg]. }
  assert (Hmach : machine_cost r1 <= machine_cost r2).
  { unfold machine_cost, machine_time_hours.
    apply Qmult_le_compat_r; [|discriminate].
    apply py_max_mono. unfold Qdiv. apply Qmult_le_compat_r; [exact Hcm|discriminate]. }
  simpl. apply round2_mono. unfold estimated_cost_raw. apply py_max_mono.
  rewrite Hf. apply Qmult_le_compat_r; [|apply finish_mult_nonneg].
  unfold subtotal. rewrite <- Hc.
  apply Qmult_le_compat_r; [|exact Hc0].
  unfold handling, color_match. lra.
Qed.

Lemma dict_get_absent (d : list (string * Q)) (k : string) (default : Q) :
  ~ In k (map fst d) -> dict_get d k default = default.
Proof.
  induction d as [|[k' v] d IH]; simpl; intro Hn; [reflexivity|].
  destruct (String.eqb k k') eqn:E.
  - apply String.eqb_eq in E. subst. exfalso. apply Hn. left. reflexivity.
  - apply IH. intro H. apply Hn. right. exact H.
Qed.

(** An unknown material is quoted exactly like ABS (rate 5.0): the whole
    response is the same. *)
Theorem unknown_material_quoted_as_ABS (r : EstimateRequest) (m : string) :
  ~ In m ["PLA"; "ABS"; "Resin"; "Nylon"; "PETG"]%string ->
  estimate_cost (with_material r m) = estimate_cost (with_material r "ABS").
Proof.
  intro Hn. apply estimate_cost_ext; try reflexivity.
  unfold material_rate. change (material (with_material r m)) with m.
  rewrite dict_get_absent by exact Hn. reflexivity.
Qed.

(** An unknown finish is quoted exactly like Standard (multiplier 1.0):
    the whole response is the same. *)
Theorem unknown_finish_quoted_as_Standard (r : EstimateRequest) (f : string) :
  ~ In f ["Standard"; "Smooth"; "High-Gloss"; "Matte"]%string ->
  estimate_cost (with_finish r f) = estimate_cost (with_finish r "Standard").
Proof.
  intro Hn. apply estimate_cost_ext; try reflexivity.
  unfold finish_mult. change (finish (with_finish r f)) with f.
  rewrite dict_get_absent by exact Hn. reflexivity.
Qed.

(** With a positive model volume the bounding box plays no part: changing
    length, width and height does not change the response. *)
Theorem model_volume_ignores_dims (r : EstimateRequest) (mv l w h : Q) :
  model_volume_mm3 r = Some mv -> 0 < mv ->
  estimate_cost (with_dims r l w h) = estimate_cost r.
Proof.
  intros E Hpos. apply estimate_cost_ext; try reflexivity.
  apply Qlt_bool_iff in Hpos.
  unfold volume_mm3. simpl. rewrite E, Hpos. reflexivity.
Qed.

(** For a validated request the infill clamp of the model-volume path
    changes nothing: the volume is the model volume times the infill. *)
Theorem model_volume_clamp_inactive (r : EstimateRequest) (mv : Q) :
  valid_request r -> model_volume_mm3 r = Some mv -> 0 < mv ->
  volume_mm3 r == mv * infill r.
Proof.
  intros (_ & _ & _ & _ & [Hi1 Hi2] & _) E Hpos.
  apply Qlt_bool_iff in Hpos.
  unfold volume_mm3. rewrite E, Hpos.
  unfold py_min, py_max.
  destruct (Qlt_bool (infill r) 1) eqn:E1.
  - destruct (Qlt_bool (5#100) 1) eqn:E2; [|discriminate].
    destruct (Qlt_bool (5#100) (infill r)) eqn:E3.
    + reflexivity.
    + apply Qlt_bool_false in E3.
      assert (Heq : infill r == 5#100) by lra. rewrite Heq. reflexivity.
  - apply Qlt_bool_false in E1.
    assert (Heq : infill r == 1) by lra. rewrite Heq. reflexivity.
Qed.

(** Same volume and complexity: a higher material rate and a higher finish
    multiplier never lower the quote. *)
Lemma estimate_mono_rates (r1 r2 : EstimateRequest) :
  volume_mm3 r1 = volume_mm3 r2 -> 0 <= volume_mm3 r1 ->
  material_rate r1 <= material_rate r2 -> finish_mult r1 <= finish_mult r2 ->
  complexity r1 = complexity r2 -> 0 <= complexity r1 ->
  estimated_cost (estimate_cost r1) <= estimated_cost (estimate_cost r2).
Proof.
  intros Hv H0 Hm Hf Hc Hc0.
  assert (Hcm : 0 <= volume_cm3 r1).
  { unfold volume_cm3. apply Qle_shift_div_l; [reflexivity|]. lra. }
  assert (Hbase : base_cost r1 <= base_cost r2).
  { unfold base_cost. replace (volume_cm3 r2) with (volume_cm3 r1)
      by (unfold volume_cm3; rewrite Hv; reflexivity).
    rewrite !(Qmult_comm (volume_cm3 r1)).
    apply Qmult_le_compat_r; assumption. }
  assert (Hb0 : 0 <= base_cost r1).
  { unfold base_cost. apply Qmult_le_0_compat; [exact Hcm|apply material_rate_nonneg]. }
  assert (Hmach : machine_cost r1 = machine_cost r2).
  { unfold machine_cost, machine_time_hours, volume_cm3. rewrite Hv. reflexivity. }
  pose proof (machine_cost_ge r1) as Hm60.
  assert (Hs : 0 <= subtotal r1 <= subtotal r2).
  { unfold subtotal. rewrite <- Hc, <- Hmach. split.
    - apply Qmult_le_0_compat; [unfold handling, color_match; lra|exact Hc0].
    - apply Qmult_le_compat_r; [unfold handling, color_match; lra|exact Hc0]. }
  simpl. apply round2_mono. unfold estimated_cost_raw. apply py_max_mono.
  apply Qmult_le_compat_nonneg; [exact Hs|].
  split; [apply finish_mult_nonneg|exact Hf].
Qed.

Lemma valid_volume_complexity (r : EstimateRequest) :
  valid_request r -> 0 <= volume_mm3 r /\ 0 <= complexity r.
Proof.
  intro Hv. split; [apply volume_mm3_nonneg; exact Hv|].
  destruct Hv as (_ & _ & _ & [Hc _] & _). lra.
Qed.

(** For a validated request the finish ranks the quote: Standard is the
    cheapest finish, High-Gloss the dearest, any other finish string lies
    between them. *)
Theorem finish_ranking (r : EstimateRequest) (f : string) :
  valid_request r ->
  estimated_cost (estimate_cost (with_finish r "Standard")) <=
  estimated_cost (estimate_cost (with_finish r f)) /\
  estimated_cost (estimate_cost (with_finish r f)) <=
  estimated_cost (estimate_cost (with_finish r "High-Gloss")).
Proof.
  intro Hv. destruct (valid_volume_complexity r Hv) as [H0 Hc0].
  assert (Hb : 1 <= finish_mult (with_finish r f) <= 13#10).
  { destruct (finish_mult_cases (with_finish r f)) as [E|[E|[E|E]]]; rewrite E;
      split; discriminate. }
  split; apply estimate_mono_rates; try reflexivity; try assumption;
    try apply Qle_refl.
  - apply Hb.
  - apply Hb.
Qed.

(** For a validated request the material ranks the quote: PLA is the
    cheapest material, Resin the dearest, any other material string lies
    between them. *)
Theorem material_ranking (r : EstimateRequest) (m : string) :
  valid_request r ->
  estimated_cost (estimate_cost (with_material r "PLA")) <=
  estimated_cost (estimate_cost (with_material r m)) /\
  estimated_cost (estimate_cost (with_material r m)) <=
  estimated_cost (estimate_cost (with_material r "Resin")).
Proof.
  intro Hv. destruct (valid_volume_complexity r Hv) as [H0 Hc0].
  assert (Hb : 4 <= material_rate (with_material r m) <= 12).
  { destruct (material_rate_cases (with_material r m)) as [E|[E|[E|[E|E]]]]; rewrite E;
      split; discriminate. }
  split; apply estimate_mono_rates; try reflexivity; try assumption;
    try apply Qle_refl.
  - apply Hb.
  - apply Hb.
Qed.

(** For a validated request a larger positive model volume never lowers
    the quote. *)
Theorem estimate_mono_model_volume (r : EstimateRequest) (mv1 mv2 : Q) :
  valid_request r -> 0 < mv1 -> mv1 <= mv2 ->
  estimated_cost (estimate_cost (with_model_volume r (Some mv1))) <=
  estimated_cost (estimate_cost (with_model_volume r (Some mv2))).
Proof.
  intros Hv H1 H12. destruct (valid_volume_complexity r Hv) as [_ Hc0].
  assert (H2 : 0 < mv2) by lra.
  pose proof (py_max_ge_l (5#100) (py_min 1 (infill r))) as Hcl.
  assert (E1 : volume_mm3 (with_model_volume r (Some mv1)) =
               mv1 * py_max (5#100) (py_min 1 (infill r))).
  { unfold volume_mm3. simpl. apply Qlt_bool_iff in H1. rewrite H1. reflexivity. }
  assert (E2 : volume_mm3 (with_model_volume r (Some mv2)) =
               mv2 * py_max (5#100) (py_min 1 (infill r))).
  { unfold volume_mm3. simpl. apply Qlt_bool_iff in H2. rewrite H2. reflexivity. }
  apply estimate_mono_volume; try reflexivity; try exact Hc0.
  - rewrite E1. apply Qmult_le_0_compat; lra.
  - rewrite E1, E2. apply Qmult_le_compat_r; lra.
Qed.

(** Without a model volume, a validated request's quote never drops when
    the bounding box grows in every direction. *)
Theorem estimate_mono_dims (r : EstimateRequest) (l1 w1 h1 l2 w2 h2 : Q) :
  valid_request r -> model_volume_mm3 r = None ->
  0 < l1 <= l2 -> 0 < w1 <= w2 -> 0 < h1 <= h2 ->
  estimated_cost (estimate_cost (with_dims r l1 w1 h1)) <=
  estimated_cost (estimate_cost (with_dims r l2 w2 h2)).
Proof.
  intros Hv Hn Hl Hw Hh. destruct (valid_volume_complexity r Hv) as [_ Hc0].
  destruct Hv as (_ & _ & _ & _ & [Hi1 Hi2] & _).
  assert (Hlw : 0 <= l1 * w1 <= l2 * w2).
  { split; [apply Qmult_le_0_compat; lra|].
    apply Qmult_le_compat_nonneg; lra. }
  assert (Hlwh : 0 <= l1 * w1 * h1 <= l2 * w2 * h2).
  { split; [apply Qmult_le_0_compat; lra|].
    apply Qmult_le_compat_nonneg; [exact Hlw|lra]. }
  assert (Hfac : 0 <= (2#100) + (78#100) * infill r) by lra.
  apply estimate_mono_volume; try reflexivity; try exact Hc0;
    unfold volume_mm3; simpl; rewrite Hn.
  - apply Qmult_le_0_compat; lra.
  - apply Qmult_le_compat_r; lra.
Qed.

(** Prints of at most 4 cm3 all get the minimum half hour of machine time,
    reported as 0.5, and a machine line item of 60.0. *)
Theorem small_print_minimum_machine_time (r : EstimateRequest) :
  volume_cm3 r <= 4 ->
  machine_time_hours r = 1#2 /\
  bd_machine_time_hours (breakdown (estimate_cost r)) == 1#2 /\
  li_machine (bd_line_items (breakdown (estimate_cost r))) == 60.
Proof.
  intro Hs.
  assert (E : machine_time_hours r = 1#2).
  { unfold machine_time_hours, py_max.
    assert (Hf : Qlt_bool (1#2) (volume_cm3 r / 8) = false).
    { apply Qlt_bool_false. unfold Qdiv.
      setoid_replace (1#2) with (4 * /8) by reflexivity.
      apply Qmult_le_compat_r; [exact Hs|discriminate]. }
    rewrite Hf. reflexivity. }
  split; [exact E|]. simpl. unfold machine_cost. rewrite E.
  split; vm_compute; reflexivity.
Qed.

(* ================================================================== *)
(** * Quote submission, login, catalogue and order listing *)




(** The token a successful login hands out is accepted by
    [submit_quote]. *)
Theorem login_token_accepted (env : Env) (users : option (list UserDoc))
    (req : LoginRequest) (now : nat) (tok e n : string)
    (st : Store) (body : QuoteRequest) (now' : nat) :
  fst (login env users req now) = LoginOk tok e n ->
  response_ok (fst (submit_quote st body (Some tok) now')) = true.
Proof.
  unfold login.
  destruct (_ && _)%bool; simpl; intro H; [|discriminate H].
  injection H as <- _ _.
  unfold submit_quote. rewrite String.eqb_refl. simpl.
  destruct (db st); reflexivity.
Qed.

Lemma existsb_count (coll : list UserDoc) (email : string) :
  existsb (fun u => String.eqb (u_email u) email) coll = false <->
  count_email coll email = 0%nat.
Proof.
  unfold count_email. induction coll as [|u coll IH]; simpl; [tauto|].
  destruct (String.eqb (u_email u) email); simpl; [split; discriminate|exact IH].
Qed.

Lemma count_email_app (c1 c2 : list UserDoc) (email : string) :
  count_email (c1 ++ c2) email = (count_email c1 email + count_email c2 email)%nat.
Proof. unfold count_email. rewrite filter_app, length_app. reflexivity. Qed.





Section OrderProofs.

Variable V : Type.
Variable py_str : V -> V.

Lemma lookup_filter_id (d : Doc V) (k : string) :
  dict_lookup (filter (fun kv => negb (String.eqb (fst kv) "_id")) d) k =
  if String.eqb k "_id" then None else dict_lookup d k.
Proof.
  induction d as [|[k' v] d IH]; simpl.
  - destruct (String.eqb k "_id"); reflexivity.
  - destruct (String.eqb k' "_id") eqn:E1; simpl.
    + apply String.eqb_eq in E1. subst k'. rewrite IH.
      destruct (String.eqb k "_id") eqn:E2; [reflexivity|].
      destruct (String.eqb "_id" k) eqn:E3; [|reflexivity].
      apply String.eqb_eq in E3. subst k. rewrite String.eqb_refl in E2. discriminate.
    + rewrite IH. destruct (String.eqb k' k) eqn:E2.
      * apply String.eqb_eq in E2. subst k'. rewrite E1. reflexivity.
      * reflexivity.
Qed.

Lemma lookup_set_same (d : Doc V) (k : string) (v : V) :
  dict_lookup (dict_set d k v) k = Some v.
Proof.
  induction d as [|[k' v'] d IH]; simpl.
  - rewrite String.eqb_refl. reflexivity.
  - destruct (String.eqb k' k) eqn:E; simpl.
    + rewrite String.eqb_refl. reflexivity.
    + rewrite E. exact IH.
Qed.

Lemma lookup_set_other (d : Doc V) (k k' : string) (v : V) :
  k <> k' -> dict_lookup (dict_set d k v) k' = dict_lookup d k'.
Proof.
  intro Hne. induction d as [|[k0 v0] d IH]; simpl.
  - apply String.eqb_neq in Hne. rewrite Hne. reflexivity.
  - destruct (String.eqb k0 k) eqn:E; simpl.
    + apply String.eqb_eq in E. subst k0.
      apply String.eqb_neq in Hne. rewrite Hne. reflexivity.
    + rewrite IH. reflexivity.
Qed.


(** Each listed item reports a document's "_id" as "id" (through [str])
    and keeps every other field of the document; a document without
    "_id" keeps all its fields. *)
Theorem order_item_fields (d : Doc V) :
  (forall oid, dict_lookup d "_id" = Some oid ->
     dict_lookup (order_item py_str d) "id" = Some (py_str oid) /\
     forall k, k <> "_id"%string -> k <> "id"%string ->
       dict_lookup (order_item py_str d) k = dict_lookup d k) /\
  (dict_lookup d "_id" = None ->
     forall k, dict_lookup (order_item py_str d) k = dict_lookup d k).
Proof.
  unfold order_item. split.
  - intros oid E. rewrite E. split.
    + apply lookup_set_same.
    + intros k Hk1 Hk2. rewrite lookup_set_other by (intro H; apply Hk2; symmetry; exact H).
      rewrite lookup_filter_id. apply String.eqb_neq in Hk1. rewrite Hk1. reflexivity.
  - intros E k. rewrite E, lookup_filter_id.
    destruct (String.eqb k "_id") eqn:Ek; [|reflexivity].
    apply String.eqb_eq in Ek. subst k. symmetry. exact E.
Qed.

End OrderProofs.

(* ================================================================== *)
(** * Witnesses of the further properties *)

Ltac qdec := vm_compute; first [reflexivity | let Hq := fresh in intro Hq; discriminate Hq].

Lemma unknown_material_quoted_as_ABS_witness :
  estimate_cost (with_material scenario_A "Wood") = estimate_cost (with_material scenario_A "ABS").
Proof.
  apply unknown_material_quoted_as_ABS.
  simpl. intros [H|[H|[H|[H|[H|[]]]]]]; discriminate H.
Defined.

Lemma unknown_finish_quoted_as_Standard_witness :
  estimate_cost (with_finish scenario_A "Glitter") = estimate_cost (with_finish scenario_A "Standard").
Proof.
  apply unknown_finish_quoted_as_Standard.
  simpl. intros [H|[H|[H|[H|[]]]]]; discriminate H.
Defined.

Lemma model_volume_ignores_dims_witness :
  estimate_cost (with_dims (scenario_B 1 1 1) 50 60 70) = estimate_cost (scenario_B 1 1 1).
Proof. apply (model_volume_ignores_dims (scenario_B 1 1 1) 10000); [reflexivity|qdec]. Defined.

Lemma model_volume_clamp_inactive_witness :
  volume_mm3 (scenario_B 1 1 1) == 10000 * (5#10).
Proof.
  apply (model_volume_clamp_inactive (scenario_B 1 1 1) 10000); [valid_req|reflexivity|qdec].
Defined.

Lemma finish_ranking_witness :
  estimated_cost (estimate_cost (with_finish scenario_A "Standard")) <=
  estimated_cost (estimate_cost (with_finish scenario_A "Matte")) /\
  estimated_cost (estimate_cost (with_finish scenario_A "Matte")) <=
  estimated_cost (estimate_cost (with_finish scenario_A "High-Gloss")).
Proof. apply finish_ranking. valid_req. Defined.

Lemma material_ranking_witness :
  estimated_cost (estimate_cost (with_material scenario_A "PLA")) <=
  estimated_cost (estimate_cost (with_material scenario_A "Nylon")) /\
  estimated_cost (estimate_cost (with_material scenario_A "Nylon")) <=
  estimated_cost (estimate_cost (with_material scenario_A "Resin")).
Proof. apply material_ranking. valid_req. Defined.

Lemma estimate_mono_model_volume_witness :
  estimated_cost (estimate_cost (with_model_volume scenario_A (Some 10000))) <=
  estimated_cost (estimate_cost (with_model_volume scenario_A (Some 50000))).
Proof. apply estimate_mono_model_volume; [valid_req|qdec|qdec]. Defined.

Lemma estimate_mono_dims_witness :
  estimated_cost (estimate_cost (with_dims scenario_A 10 20 30)) <=
  estimated_cost (estimate_cost (with_dims scenario_A 10 25 30)).
Proof.
  apply estimate_mono_dims; [valid_req|reflexivity|split; qdec|split; qdec|split; qdec].
Defined.

Lemma small_print_minimum_machine_time_witness :
  machine_time_hours scenario_C = 1#2 /\
  bd_machine_time_hours (breakdown (estimate_cost scenario_C)) == 1#2 /\
  li_machine (bd_line_items (breakdown (estimate_cost scenario_C))) == 60.
Proof. apply small_print_minimum_machine_time. qdec. Defined.

Lemma login_token_accepted_witness :
  response_ok (fst (submit_quote empty_store sample_quote (Some DEMO_TOKEN) 1)) = true.
Proof.
  apply (login_token_accepted default_env (Some []) demo_login 0 DEMO_TOKEN
           "ankitmht42@gmail.com" "Demo User").
  reflexivity.
Defined.


